(** * MCP tutorial servers: calculators and feed search

    A shallow embedding of the tool handlers of
    [Intro_to_MCP_Servers_FreeCodeCamp]:

    - [01_fastmcp_calculator.py], [03_fastmcp_calculatorV2.py]: [divide];
    - [02_fastapi_mcp_calculator.py]: [divide_numbers];
    - [04_feed_mcp.py]: [fcc_news_search], [fcc_youtube_search],
      [fcc_secret_message].

    Python [float] is IEEE-754 binary64 and is modelled by Rocq's primitive
    floats; [int] is [Z]; [str] is [string] with the ASCII case mapping;
    a [dict] with string keys is a [gmap string _]. A call either returns a
    value or raises, which is the [outcome] type. The feed tools are
    modelled as functions of the list of entries that [feedparser.parse]
    delivered. *)

From Stdlib Require Import PrimFloat Floats Ascii String.
From stdpp Require Import gmap strings list fin_maps.

Local Open Scope Z_scope.

(** ** Outcome of a Python call *)

Inductive exn : Type :=
  | ValueError (msg : string).

Inductive outcome (A : Type) : Type :=
  | Return (v : A)
  | Raise (e : exn).

Arguments Return {A} v.
Arguments Raise {A} e.

(** A JSON value as the FastAPI handlers put it in a response body. *)
Inductive json : Type :=
  | JNumber (x : float)
  | JString (s : string).

(** [b == 0] on a float: IEEE equality with zero, true for [0.0] and
    [-0.0], false for NaN. *)
Definition is_zero (b : float) : bool := PrimFloat.eqb b PrimFloat.zero.

(** ** 01_fastmcp_calculator.py *)

Module FastMCPCalculator.

Definition multiply (a b : float) : outcome float := Return (PrimFloat.mul a b).

Definition add_numbers (x y : float) : outcome float := Return (PrimFloat.add x y).

Definition subtract (a b : float) : outcome float := Return (PrimFloat.sub a b).

Definition divide (a b : float) : outcome float :=
  if is_zero b then Raise (ValueError "Cannot divide by zero.")
  else Return (PrimFloat.div a b).

End FastMCPCalculator.

(** ** 02_fastapi_mcp_calculator.py *)

Module FastAPICalculator.

Definition multiply_numbers (a b : float) : outcome (gmap string json) :=
  let result := PrimFloat.mul a b in
  Return {[ "result" := JNumber result ]}.

Definition add_numbers (a b : float) : outcome (gmap string json) :=
  let result := PrimFloat.add a b in
  Return {[ "result" := JNumber result ]}.

Definition subtract_numbers (a b : float) : outcome (gmap string json) :=
  let result := PrimFloat.sub a b in
  Return {[ "result" := JNumber result ]}.

Definition divide_numbers (a b : float) : outcome (gmap string json) :=
  if is_zero b then
    Return {[ "error" := JString "Division by zero is not allowed." ]}
  else
    let result := PrimFloat.div a b in
    Return {[ "result" := JNumber result ]}.

End FastAPICalculator.

(** ** 03_fastmcp_calculatorV2.py *)

Module FastMCPCalculatorV2.

Definition multiply (a b : float) : outcome float := Return (PrimFloat.mul a b).

Definition add_numbers (x y : float) : outcome float := Return (PrimFloat.add x y).

Definition subtract (a b : float) : outcome float := Return (PrimFloat.sub a b).

Definition divide (a b : float) : outcome float :=
  if is_zero b then Raise (ValueError "Cannot divide by zero.")
  else Return (PrimFloat.div a b).

End FastMCPCalculatorV2.

(** ** Strings

    [str.lower()] and the substring test [needle in haystack]. *)

Definition is_upper (c : ascii) : bool :=
  (65 <=? nat_of_ascii c)%nat && (nat_of_ascii c <=? 90)%nat.

Definition lower_char (c : ascii) : ascii :=
  if is_upper c then ascii_of_nat (nat_of_ascii c + 32) else c.

Fixpoint lower (s : string) : string :=
  match s with
  | EmptyString => EmptyString
  | String c rest => String (lower_char c) (lower rest)
  end.

Fixpoint contains (needle haystack : string) : bool :=
  if String.prefix needle haystack then true
  else match haystack with
       | EmptyString => false
       | String _ rest => contains needle rest
       end.

(** ** 04_feed_mcp.py *)

(** [d.get(key, default)]: the value under [key], or [default] when the key
    is absent; it never raises. *)
Definition get (d : gmap string string) (key default : string) : string :=
  match d !! key with
  | Some v => v
  | None => default
  end.

(** Loop of [fcc_news_search]. [results] is the list built so far; the
    value is the list at loop exit together with the entries the loop never
    reached. *)
Fixpoint news_loop (query_lower : string) (max_results : Z)
    (entries : list (gmap string string)) (results : list (gmap string string))
    : list (gmap string string) * list (gmap string string) :=
  match entries with
  | [] => (results, [])
  | entry :: rest =>
      let title := get entry "title" "" in
      let description := get entry "description" "" in
      let results :=
        if contains query_lower (lower title)
           || contains query_lower (lower description)
        then results ++ [ {[ "title" := title; "url" := get entry "link" "" ]} ]
        else results in
      if Z.of_nat (length results) >=? max_results then (results, rest)
      else news_loop query_lower max_results rest results
  end.

Definition fcc_news_search (feed_entries : list (gmap string string))
    (query : string) (max_results : Z) : outcome (list (gmap string string)) :=
  let results := [] in
  let query_lower := lower query in
  let results := fst (news_loop query_lower max_results feed_entries results) in
  Return (match results with
          | [] => [ {[ "message" := "No results found" ]} ]
          | _ :: _ => results
          end).

(** Loop of [fcc_youtube_search]: the same shape, testing the title only. *)
Fixpoint youtube_loop (query_lower : string) (max_results : Z)
    (entries : list (gmap string string)) (results : list (gmap string string))
    : list (gmap string string) * list (gmap string string) :=
  match entries with
  | [] => (results, [])
  | entry :: rest =>
      let title := get entry "title" "" in
      let results :=
        if contains query_lower (lower title)
        then results ++ [ {[ "title" := title; "url" := get entry "link" "" ]} ]
        else results in
      if Z.of_nat (length results) >=? max_results then (results, rest)
      else youtube_loop query_lower max_results rest results
  end.

Definition fcc_youtube_search (feed_entries : list (gmap string string))
    (query : string) (max_results : Z) : outcome (list (gmap string string)) :=
  let results := [] in
  let query_lower := lower query in
  let results := fst (youtube_loop query_lower max_results feed_entries results) in
  Return (match results with
          | [] => [ {[ "message" := "No videos found" ]} ]
          | _ :: _ => results
          end).

Definition fcc_secret_message (_ : unit) : outcome string :=
  Return "Keep exploring! and happy coding!".

(** ** The two loops as one scan

    Both loops visit the entries in order, append [to_result entry] when the
    entry is a hit, and leave once [len(results) >= max_results]. They
    differ in the hit test only. [scan] is that common shape; it is used to
    state and prove the properties once. *)

Definition to_result (entry : gmap string string) : gmap string string :=
  {[ "title" := get entry "title" ""; "url" := get entry "link" "" ]}.

Definition news_hit (query_lower : string) (entry : gmap string string) : bool :=
  contains query_lower (lower (get entry "title" ""))
  || contains query_lower (lower (get entry "description" "")).

Definition youtube_hit (query_lower : string) (entry : gmap string string) : bool :=
  contains query_lower (lower (get entry "title" "")).

Fixpoint scan (hit : gmap string string -> bool) (max_results : Z)
    (entries : list (gmap string string)) (results : list (gmap string string))
    : list (gmap string string) * list (gmap string string) :=
  match entries with
  | [] => (results, [])
  | entry :: rest =>
      let results := if hit entry then results ++ [to_result entry] else results in
      if Z.of_nat (length results) >=? max_results then (results, rest)
      else scan hit max_results rest results
  end.

(** [results or [sentinel]]. *)
Definition or_else (results sentinel : list (gmap string string))
    : list (gmap string string) :=
  match results with
  | [] => sentinel
  | _ :: _ => results
  end.

(** Entries that agree on every [get] are indistinguishable to the loop. *)
Definition same_fields (a b : gmap string string) : Prop :=
  forall key, get a key "" = get b key "".

(** The outcome is a raised [ValueError]: the handler fails. *)
Definition fails_with_domain_error {A : Type} (o : outcome A) : Prop :=
  exists msg, o = Raise (ValueError msg).

(** * Properties *)

Lemma news_loop_scan q k entries results :
  news_loop q k entries results = scan (news_hit q) k entries results.
Proof.
  revert results. induction entries as [|entry rest IH]; intros results; [reflexivity|].
  cbn [news_loop scan]. unfold news_hit, to_result. cbv zeta.
  destruct (contains q (lower (get entry "title" ""))
            || contains q (lower (get entry "description" "")));
    destruct (_ >=? k); auto.
Qed.

Lemma youtube_loop_scan q k entries results :
  youtube_loop q k entries results = scan (youtube_hit q) k entries results.
Proof.
  revert results. induction entries as [|entry rest IH]; intros results; [reflexivity|].
  cbn [youtube_loop scan]. unfold youtube_hit, to_result. cbv zeta.
  destruct (contains q (lower (get entry "title" ""))); destruct (_ >=? k); auto.
Qed.

Lemma fcc_news_search_scan entries query k :
  fcc_news_search entries query k =
  Return (or_else (fst (scan (news_hit (lower query)) k entries []))
                  [ {[ "message" := "No results found" ]} ]).
Proof. unfold fcc_news_search. cbv zeta. rewrite news_loop_scan. reflexivity. Qed.

Lemma fcc_youtube_search_scan entries query k :
  fcc_youtube_search entries query k =
  Return (or_else (fst (scan (youtube_hit (lower query)) k entries []))
                  [ {[ "message" := "No videos found" ]} ]).
Proof. unfold fcc_youtube_search. cbv zeta. rewrite youtube_loop_scan. reflexivity. Qed.

Section ScanFacts.

Variable hit : gmap string string -> bool.
Variable k : Z.

Lemma scan_step entry rest results :
  scan hit k (entry :: rest) results =
  let results' := if hit entry then results ++ [to_result entry] else results in
  if Z.of_nat (length results') >=? k then (results', rest)
  else scan hit k rest results'.
Proof. reflexivity. Qed.

(** The loop leaves with at most [max k 1] results. *)
Lemma scan_length entries results :
  Z.of_nat (length results) < Z.max k 1 ->
  Z.of_nat (length (fst (scan hit k entries results))) <= Z.max k 1.
Proof.
  revert results. induction entries as [|entry rest IH]; intros results Hlt.
  - cbn. lia.
  - rewrite scan_step. cbv zeta.
    set (results' := if hit entry then _ else _).
    assert (Hlen : Z.of_nat (length results') <= Z.of_nat (length results) + 1).
    { subst results'. destruct (hit entry); rewrite ?length_app; cbn; lia. }
    destruct (Z.geb_spec (Z.of_nat (length results')) k) as [Hge|Hlt'].
    + cbn. lia.
    + apply IH. lia.
Qed.

(** With no hit among the entries the list is left as it was. *)
Lemma scan_no_hit entries results :
  Forall (fun entry => hit entry = false) entries ->
  fst (scan hit k entries results) = results.
Proof.
  revert results. induction entries as [|entry rest IH]; intros results Hno.
  - reflexivity.
  - inversion Hno as [|? ? Hentry Hrest]; subst.
    rewrite scan_step, Hentry. cbv zeta.
    destruct (_ >=? k); [reflexivity|]. apply IH, Hrest.
Qed.

(** The visited entries are a prefix of the feed, and the results are the
    hits of that prefix, in order. *)
Lemma scan_prefix entries results :
  exists visited,
    entries = visited ++ snd (scan hit k entries results) /\
    fst (scan hit k entries results) =
      results ++ map to_result (List.filter hit visited).
Proof.
  revert results. induction entries as [|entry rest IH]; intros results.
  - exists []. cbn. rewrite app_nil_r. auto.
  - rewrite scan_step. cbv zeta.
    set (results' := if hit entry then _ else _).
    assert (Hres : results' = results ++ map to_result (List.filter hit [entry])).
    { subst results'. cbn. destruct (hit entry); cbn; rewrite ?app_nil_r; auto. }
    destruct (_ >=? k).
    + exists [entry]. cbn [fst snd]. split; [reflexivity|exact Hres].
    + destruct (IH results') as (visited & Hsplit & Hfst).
      exists (entry :: visited). split.
      * cbn. f_equal. exact Hsplit.
      * rewrite Hfst, Hres. cbn [List.filter].
        destruct (hit entry); cbn; rewrite <- ?app_assoc; cbn; reflexivity.
Qed.

(** Below the cap, the loop collects the first hits up to the cap. *)
Lemma scan_firstn entries results :
  Z.of_nat (length results) < k ->
  fst (scan hit k entries results) =
    results ++ map to_result
      (firstn (Z.to_nat k - length results) (List.filter hit entries)).
Proof.
  revert results. induction entries as [|entry rest IH]; intros results Hlt.
  - cbn. rewrite firstn_nil, app_nil_r. reflexivity.
  - rewrite scan_step. cbv zeta. cbn [List.filter].
    destruct (hit entry) eqn:Hhit.
    + rewrite length_app. cbn [length].
      destruct (Z.geb_spec (Z.of_nat (length results + 1)) k) as [Hge|Hlt'].
      * replace (Z.to_nat k - length results)%nat with 1%nat by lia.
        reflexivity.
      * rewrite IH by (rewrite length_app; cbn; lia).
        rewrite length_app. cbn [length].
        replace (Z.to_nat k - length results)%nat
          with (S (Z.to_nat k - (length results + 1)))%nat by lia.
        cbn. rewrite <- app_assoc. reflexivity.
    + destruct (Z.geb_spec (Z.of_nat (length results)) k) as [Hge|Hlt'];
        [lia|]. apply IH, Hlt.
Qed.

(** The loop leaves exactly when the cap is reached: it reaches the end
    of the feed while below the cap, and the last entry it visits when it
    reaches the cap is a hit. *)
Lemma scan_stop entries results :
  Z.of_nat (length results) < k ->
  exists visited,
    entries = visited ++ snd (scan hit k entries results) /\
    fst (scan hit k entries results) =
      results ++ map to_result (List.filter hit visited) /\
    Z.of_nat (length (fst (scan hit k entries results))) <= k /\
    (Z.of_nat (length (fst (scan hit k entries results))) < k ->
     snd (scan hit k entries results) = []) /\
    (Z.of_nat (length (fst (scan hit k entries results))) = k ->
     exists before last, visited = before ++ [last] /\ hit last = true).
Proof.
  revert results. induction entries as [|entry rest IH]; intros results Hlt.
  - exists []. cbn. rewrite app_nil_r. repeat split; auto; lia.
  - rewrite scan_step. cbv zeta.
    destruct (hit entry) eqn:Hhit.
    + destruct (Z.geb_spec (Z.of_nat (length (results ++ [to_result entry]))) k)
        as [Hge|Hlt'].
      * exists [entry]. cbn [fst snd List.filter]. rewrite Hhit.
        rewrite length_app in *. cbn [length] in *.
        repeat split; auto; try lia.
        intros _. exists [], entry. auto.
      * destruct (IH _ Hlt') as (visited & Hsplit & Hfst & Hle & Hend & Hlast).
        exists (entry :: visited). cbn [List.filter]. rewrite Hhit.
        repeat split; auto.
        -- cbn. f_equal. exact Hsplit.
        -- rewrite Hfst, <- app_assoc. reflexivity.
        -- intros Heq. destruct (Hlast Heq) as (before & last & -> & Hl).
           exists (entry :: before), last. auto.
    + destruct (Z.geb_spec (Z.of_nat (length results)) k) as [Hge|Hlt']; [lia|].
      destruct (IH _ Hlt) as (visited & Hsplit & Hfst & Hle & Hend & Hlast).
      exists (entry :: visited). cbn [List.filter]. rewrite Hhit.
      repeat split; auto.
      -- cbn. f_equal. exact Hsplit.
      -- intros Heq. destruct (Hlast Heq) as (before & last & -> & Hl).
         exists (entry :: before), last. auto.
Qed.

End ScanFacts.

(** ** Helper facts on results and strings *)

Lemma to_result_title entry : to_result entry !! "title" = Some (get entry "title" "").
Proof. unfold to_result. by simplify_map_eq. Qed.

Lemma to_result_url entry : to_result entry !! "url" = Some (get entry "link" "").
Proof. unfold to_result. by simplify_map_eq. Qed.

Lemma message_no_title (msg : string) :
  ({[ "message" := msg ]} : gmap string string) !! "title" = None.
Proof. by simplify_map_eq. Qed.

Lemma or_else_length results sentinel :
  length (or_else results [sentinel]) = Nat.max (length results) 1.
Proof. destruct results; cbn; lia. Qed.

Lemma lower_char_idem c : lower_char (lower_char c) = lower_char c.
Proof. destruct c as [[] [] [] [] [] [] [] []]; reflexivity. Qed.

Lemma lower_idem s : lower (lower s) = lower s.
Proof. induction s as [|c s IH]; cbn; [reflexivity|]. by rewrite lower_char_idem, IH. Qed.

Lemma scan_same_fields hit k entries entries' results :
  (forall a b, same_fields a b -> hit a = hit b) ->
  Forall2 same_fields entries entries' ->
  fst (scan hit k entries results) = fst (scan hit k entries' results).
Proof.
  intros Hhit Hall. revert results.
  induction Hall as [|a b rest rest' Hab Hrest IH]; intros results; [reflexivity|].
  rewrite !scan_step. cbv zeta.
  rewrite (Hhit a b Hab).
  assert (Hres : to_result a = to_result b).
  { unfold to_result. by rewrite (Hab "title"), (Hab "link"). }
  rewrite Hres. destruct (_ >=? k); [reflexivity|]. apply IH.
Qed.

Lemma news_hit_same_fields q a b : same_fields a b -> news_hit q a = news_hit q b.
Proof. intros Hab. unfold news_hit. by rewrite (Hab "title"), (Hab "description"). Qed.

Lemma youtube_hit_same_fields q a b : same_fields a b -> youtube_hit q a = youtube_hit q b.
Proof. intros Hab. unfold youtube_hit. by rewrite (Hab "title"). Qed.

Lemma same_fields_refl a : same_fields a a.
Proof. by intros key. Qed.

Lemma same_fields_fill (entry : gmap string string) key :
  entry !! key = None -> same_fields entry (<[key := ""]> entry).
Proof.
  intros Hnone key'. unfold get.
  destruct (decide (key = key')) as [<-|Hne].
  - by rewrite Hnone, lookup_insert_eq.
  - by rewrite lookup_insert_ne.
Qed.

(** With a cap of zero or less the loop leaves after the first entry,
    whatever it appended there. *)
Lemma scan_nonpositive_cap hit k entry rest :
  k <= 0 ->
  scan hit k (entry :: rest) [] =
    (if hit entry then [to_result entry] else [], rest).
Proof.
  intros Hk. rewrite scan_step. cbv zeta.
  destruct (hit entry); cbn [app length];
    match goal with
    | |- context [?n >=? k] => destruct (Z.geb_spec n k)
    end; (reflexivity || lia).
Qed.

(** A one-entry feed: the entry is returned exactly when it is a hit. *)
Lemma fcc_news_search_single entry query k :
  fcc_news_search [entry] query k =
    Return (if news_hit (lower query) entry then [to_result entry]
            else [ {[ "message" := "No results found" ]} ]).
Proof.
  rewrite fcc_news_search_scan. cbn [scan].
  destruct (news_hit (lower query) entry); destruct (_ >=? k); reflexivity.
Qed.

Lemma fcc_youtube_search_single entry query k :
  fcc_youtube_search [entry] query k =
    Return (if youtube_hit (lower query) entry then [to_result entry]
            else [ {[ "message" := "No videos found" ]} ]).
Proof.
  rewrite fcc_youtube_search_scan. cbn [scan].
  destruct (youtube_hit (lower query) entry); destruct (_ >=? k); reflexivity.
Qed.

(** ** Division *)

(** C1, as stated, does not hold for [divide_numbers]: with a zero divisor
    the FastAPI handler does not fail, it returns the JSON object
    [{"error": "Division by zero is not allowed."}] as its normal result. *)
Lemma divide_numbers_zero_returns :
  is_zero 0%float = true /\
  FastAPICalculator.divide_numbers 10%float 0%float =
    Return {[ "error" := JString "Division by zero is not allowed." ]} /\
  ~ fails_with_domain_error (FastAPICalculator.divide_numbers 10%float 0%float).
Proof.
  split; [reflexivity|]. split; [reflexivity|].
  intros [msg Hmsg]. discriminate Hmsg.
Qed.

(** C1 (amended): for all floats [a], [b]: when [b == 0] is false, the two
    FastMCP [divide] tools return [a / b] and [divide_numbers] returns
    [{"result": a / b}]; when [b == 0] is true, the FastMCP tools raise
    [ValueError("Cannot divide by zero.")] and [divide_numbers] returns,
    without raising, [{"error": "Division by zero is not allowed."}]. No
    variant returns a number for a zero divisor. *)
Theorem divide_variants (a b : float) :
  (is_zero b = false ->
     FastMCPCalculator.divide a b = Return (PrimFloat.div a b) /\
     FastMCPCalculatorV2.divide a b = Return (PrimFloat.div a b) /\
     FastAPICalculator.divide_numbers a b =
       Return {[ "result" := JNumber (PrimFloat.div a b) ]}) /\
  (is_zero b = true ->
     FastMCPCalculator.divide a b = Raise (ValueError "Cannot divide by zero.") /\
     FastMCPCalculatorV2.divide a b = Raise (ValueError "Cannot divide by zero.") /\
     FastAPICalculator.divide_numbers a b =
       Return {[ "error" := JString "Division by zero is not allowed." ]}).
Proof.
  unfold FastMCPCalculator.divide, FastMCPCalculatorV2.divide,
    FastAPICalculator.divide_numbers.
  split; intros ->; auto.
Qed.

Lemma divide_variants_witness :
  (is_zero 2%float = false /\
   FastMCPCalculator.divide 10%float 2%float = Return 5%float /\
   FastAPICalculator.divide_numbers 10%float 2%float =
     Return {[ "result" := JNumber 5%float ]}) /\
  (is_zero (-0)%float = true /\
   FastMCPCalculatorV2.divide 10%float (-0)%float =
     Raise (ValueError "Cannot divide by zero.")).
Proof.
  split.
  - split; [reflexivity|].
    destruct (proj1 (divide_variants 10%float 2%float) eq_refl) as (H1 & _ & H3).
    split; [exact H1 | exact H3].
  - split; [reflexivity|].
    exact (proj1 (proj2 (proj2 (divide_variants 10%float (-0)%float) eq_refl))).
Defined.

(** ** The secret message *)

(** C9: [fcc_secret_message] takes no argument and returns the constant
    string "Keep exploring! and happy coding!" on every call; it never
    raises. *)
Theorem fcc_secret_message_constant (u : unit) :
  fcc_secret_message u = Return "Keep exploring! and happy coding!".
Proof. reflexivity. Qed.

(** ** Feed search *)

(** C2: with [max_results = 0] and a first entry that matches, both
    searches return that entry, not the sentinel: the cap is tested only
    after the entry has been scanned and appended. *)
Theorem search_zero_cap_returns_first_hit :
  fcc_news_search
    [ {[ "title" := "Learn Python"; "link" := "https://x/1" ]} ] "python" 0
  = Return [ {[ "title" := "Learn Python"; "url" := "https://x/1" ]} ] /\
  fcc_youtube_search
    [ {[ "title" := "Learn Python"; "link" := "https://x/1" ]} ] "python" 0
  = Return [ {[ "title" := "Learn Python"; "url" := "https://x/1" ]} ].
Proof. split; vm_compute; reflexivity. Qed.

(** For any cap of zero or less the first entry of the feed is scanned, and
    returned when it is a hit. *)
Lemma search_nonpositive_cap entry rest query k :
  k <= 0 ->
  fcc_news_search (entry :: rest) query k =
    Return (if news_hit (lower query) entry then [to_result entry]
            else [ {[ "message" := "No results found" ]} ]) /\
  fcc_youtube_search (entry :: rest) query k =
    Return (if youtube_hit (lower query) entry then [to_result entry]
            else [ {[ "message" := "No videos found" ]} ]).
Proof.
  intros Hk. rewrite fcc_news_search_scan, fcc_youtube_search_scan.
  rewrite !scan_nonpositive_cap by exact Hk.
  destruct (news_hit _ entry), (youtube_hit _ entry); auto.
Qed.

(** C3: for every feed, query and cap [k], both searches return a list of
    at most [max k 1] elements. *)
Theorem search_cap_law entries query k :
  (exists results, fcc_news_search entries query k = Return results /\
                   Z.of_nat (length results) <= Z.max k 1) /\
  (exists results, fcc_youtube_search entries query k = Return results /\
                   Z.of_nat (length results) <= Z.max k 1).
Proof.
  rewrite fcc_news_search_scan, fcc_youtube_search_scan.
  split; eexists; (split; [reflexivity|]); rewrite or_else_length;
    match goal with
    | |- context [scan ?hit k entries []] =>
        pose proof (scan_length hit k entries []) as Hlen
    end; cbn [length] in Hlen; lia.
Qed.

(** C4: when no entry's searchable fields contain the lowered query, the
    search returns, as a normal result, exactly the one-element list
    holding its sentinel message entry. *)
Theorem search_empty_match entries query k :
  (Forall (fun entry => news_hit (lower query) entry = false) entries ->
   fcc_news_search entries query k =
     Return [ {[ "message" := "No results found" ]} ]) /\
  (Forall (fun entry => youtube_hit (lower query) entry = false) entries ->
   fcc_youtube_search entries query k =
     Return [ {[ "message" := "No videos found" ]} ]).
Proof.
  rewrite fcc_news_search_scan, fcc_youtube_search_scan.
  split; intros Hno; rewrite scan_no_hit by exact Hno; reflexivity.
Qed.

Lemma search_empty_match_witness :
  fcc_news_search
    [ {[ "title" := "React hooks"; "description" := "state" ]}; ∅ ] "Python" 3
  = Return [ {[ "message" := "No results found" ]} ] /\
  fcc_youtube_search
    [ {[ "title" := "React hooks"; "description" := "about python" ]} ] "Python" 3
  = Return [ {[ "message" := "No videos found" ]} ].
Proof.
  split.
  - apply (proj1 (search_empty_match _ "Python" 3)).
    repeat constructor.
  - apply (proj2 (search_empty_match _ "Python" 3)).
    repeat constructor.
Defined.

(** C6: searching with "PYTHON" and with "python" gives the same result
    on every feed and cap; in general two queries with the same lower-case
    form give the same result, and so does a query and its lower-case
    form. *)
Theorem search_case_insensitive :
  (forall entries k,
     fcc_news_search entries "PYTHON" k = fcc_news_search entries "python" k /\
     fcc_youtube_search entries "PYTHON" k = fcc_youtube_search entries "python" k) /\
  (forall entries k query,
     fcc_news_search entries (lower query) k = fcc_news_search entries query k /\
     fcc_youtube_search entries (lower query) k = fcc_youtube_search entries query k) /\
  (forall entries k query query',
     lower query = lower query' ->
     fcc_news_search entries query k = fcc_news_search entries query' k /\
     fcc_youtube_search entries query k = fcc_youtube_search entries query' k).
Proof.
  assert (Hgen : forall entries k query query',
     lower query = lower query' ->
     fcc_news_search entries query k = fcc_news_search entries query' k /\
     fcc_youtube_search entries query k = fcc_youtube_search entries query' k).
  { intros entries k query query' Heq.
    unfold fcc_news_search, fcc_youtube_search. cbv zeta. by rewrite Heq. }
  split; [|split].
  - intros entries k. by apply Hgen.
  - intros entries k query. apply Hgen, lower_idem.
  - exact Hgen.
Qed.

Lemma search_case_insensitive_witness :
  lower "PyThOn" = lower "pYtHoN" /\
  fcc_news_search
    [ {[ "title" := "Learn Python"; "link" := "https://x/1" ]} ] "PyThOn" 2
  = fcc_news_search
    [ {[ "title" := "Learn Python"; "link" := "https://x/1" ]} ] "pYtHoN" 2.
Proof.
  split; [reflexivity|].
  exact (proj1 (proj2 (proj2 search_case_insensitive) _ 2 "PyThOn" "pYtHoN" eq_refl)).
Defined.

(** C10: the zero-match sentinel is tool-specific. Without a hit
    [fcc_news_search] returns exactly [[{"message": "No results found"}]]
    and [fcc_youtube_search] exactly [[{"message": "No videos found"}]];
    neither search ever returns the other's sentinel. *)
Theorem sentinel_per_tool :
  (forall entries query k,
     Forall (fun entry => news_hit (lower query) entry = false) entries ->
     fcc_news_search entries query k =
       Return [ {[ "message" := "No results found" ]} ]) /\
  (forall entries query k,
     Forall (fun entry => youtube_hit (lower query) entry = false) entries ->
     fcc_youtube_search entries query k =
       Return [ {[ "message" := "No videos found" ]} ]) /\
  (forall entries query k,
     fcc_news_search entries query k <>
       Return [ {[ "message" := "No videos found" ]} ] /\
     fcc_youtube_search entries query k <>
       Return [ {[ "message" := "No results found" ]} ]).
Proof.
  assert (Hother : forall hit k entries (own other : string),
    own <> other ->
    or_else (fst (scan hit k entries [])) [ {[ "message" := own ]} ]
    <> [ {[ "message" := other ]} ]).
  { intros hit k entries own other Hne.
    destruct (scan_prefix hit k entries []) as (visited & _ & ->).
    cbn [app]. destruct (List.filter hit visited) as [|entry hits]; cbn.
    - intros Heq. apply Hne.
      assert (Hl : ({[ "message" := own ]} : gmap string string) !! "message"
                   = ({[ "message" := other ]} : gmap string string) !! "message")
        by congruence.
      rewrite !lookup_singleton_eq in Hl. congruence.
    - intros Heq.
      assert (Hl : to_result entry !! "title"
                   = ({[ "message" := other ]} : gmap string string) !! "title")
        by congruence.
      rewrite to_result_title, message_no_title in Hl. discriminate. }
  split; [|split].
  - intros entries query k Hno. rewrite fcc_news_search_scan.
    by rewrite scan_no_hit.
  - intros entries query k Hno. rewrite fcc_youtube_search_scan.
    by rewrite scan_no_hit.
  - intros entries query k.
    rewrite fcc_news_search_scan, fcc_youtube_search_scan.
    split; intros Heq; injection Heq; apply Hother; discriminate.
Qed.

Lemma sentinel_per_tool_witness :
  fcc_news_search [] "rust" 3 = Return [ {[ "message" := "No results found" ]} ] /\
  fcc_youtube_search [ {[ "title" := "Go"; "description" := "rust" ]} ] "rust" 3
  = Return [ {[ "message" := "No videos found" ]} ].
Proof.
  split.
  - apply (proj1 sentinel_per_tool). constructor.
  - apply (proj1 (proj2 sentinel_per_tool)). repeat constructor.
Defined.

(** C5: for a cap [k >= 1], [fcc_news_search] visits a prefix of the feed
    in feed order, its results are the [{title, url}] pairs of the hits of
    that prefix, with the entry's own title, in that order; it reaches the
    end of the feed while it has fewer than [k] results and leaves at the
    hit that brings the count to [k], so the results are the first [k] hits
    of the feed and nothing after them. *)
Theorem news_search_order_and_cap entries query k :
  1 <= k ->
  exists visited unvisited,
    entries = visited ++ unvisited /\
    news_loop (lower query) k entries [] =
      (map to_result (List.filter (news_hit (lower query)) visited), unvisited) /\
    List.filter (news_hit (lower query)) visited =
      firstn (Z.to_nat k) (List.filter (news_hit (lower query)) entries) /\
    (length (List.filter (news_hit (lower query)) visited) < Z.to_nat k ->
     unvisited = [])%nat /\
    (length (List.filter (news_hit (lower query)) visited) = Z.to_nat k ->
     exists before last,
       visited = before ++ [last] /\ news_hit (lower query) last = true) /\
    fcc_news_search entries query k =
      Return (or_else
                (map (fun entry => {[ "title" := get entry "title" "";
                                      "url" := get entry "link" "" ]})
                   (firstn (Z.to_nat k)
                      (List.filter (news_hit (lower query)) entries)))
                [ {[ "message" := "No results found" ]} ]).
Proof.
  intros Hk. set (hit := news_hit (lower query)).
  assert (Hlt : Z.of_nat (length (@nil (gmap string string))) < k) by (cbn; lia).
  destruct (scan_stop hit k entries [] Hlt)
    as (visited & Hsplit & Hfst & Hle & Hend & Hlast).
  cbn [app] in Hfst. rewrite Hfst, length_map in Hle, Hend, Hlast.
  exists visited, (snd (scan hit k entries [])).
  assert (Hhits : List.filter hit visited = firstn (Z.to_nat k) (List.filter hit entries)).
  { rewrite Hsplit at 1. rewrite List.filter_app.
    destruct (Z_lt_le_dec (Z.of_nat (length (List.filter hit visited))) k) as [Hl|Hl].
    - rewrite (Hend Hl). cbn [List.filter]. rewrite app_nil_r.
      symmetry. apply firstn_all2. lia.
    - rewrite firstn_app.
      replace (Z.to_nat k - length (List.filter hit visited))%nat with 0%nat by lia.
      rewrite firstn_O, app_nil_r. symmetry. apply firstn_all2. lia. }
  split; [exact Hsplit|]. split.
  { rewrite news_loop_scan. fold hit. rewrite <- Hfst. apply surjective_pairing. }
  split; [exact Hhits|]. split; [intros Hl; apply Hend; lia|].
  split; [intros Hl; apply Hlast; lia|].
  rewrite fcc_news_search_scan. fold hit. rewrite Hfst, Hhits. reflexivity.
Qed.

Lemma news_search_order_and_cap_witness :
  fcc_news_search
    [ {[ "title" := "Learn Python"; "link" := "https://x/1" ]};
      {[ "title" := "React"; "link" := "https://x/2" ]};
      {[ "title" := "Py"; "description" := "More PYTHON"; "link" := "https://x/3" ]};
      {[ "title" := "python 3"; "link" := "https://x/4" ]} ] "Python" 2
  = Return [ {[ "title" := "Learn Python"; "url" := "https://x/1" ]};
             {[ "title" := "Py"; "url" := "https://x/3" ]} ].
Proof.
  destruct (news_search_order_and_cap
    [ {[ "title" := "Learn Python"; "link" := "https://x/1" ]};
      {[ "title" := "React"; "link" := "https://x/2" ]};
      {[ "title" := "Py"; "description" := "More PYTHON"; "link" := "https://x/3" ]};
      {[ "title" := "python 3"; "link" := "https://x/4" ]} ] "Python" 2 ltac:(lia))
    as (visited & unvisited & _ & _ & _ & _ & _ & Hsearch).
  rewrite Hsearch. vm_compute. reflexivity.
Defined.

(** C7: on a one-entry feed [fcc_news_search] returns the entry exactly
    when the lowered query is in the lowered title or in the lowered
    description, and [fcc_youtube_search] exactly when it is in the lowered
    title. An entry that matches in its description only is returned by the
    news search whenever fewer than [max_results] hits precede it, and is
    never returned by the video search. *)
Theorem news_and_youtube_match :
  (forall entry query k,
     fcc_news_search [entry] query k =
       Return (if contains (lower query) (lower (get entry "title" ""))
                  || contains (lower query) (lower (get entry "description" ""))
               then [to_result entry]
               else [ {[ "message" := "No results found" ]} ])) /\
  (forall entry query k,
     fcc_youtube_search [entry] query k =
       Return (if contains (lower query) (lower (get entry "title" ""))
               then [to_result entry]
               else [ {[ "message" := "No videos found" ]} ])) /\
  (forall before entry after query k,
     contains (lower query) (lower (get entry "title" "")) = false ->
     contains (lower query) (lower (get entry "description" "")) = true ->
     (Z.of_nat (length (List.filter (news_hit (lower query)) before)) < k ->
      exists results,
        fcc_news_search (before ++ entry :: after) query k = Return results /\
        In (to_result entry) results) /\
     (exists results,
        fcc_youtube_search (before ++ entry :: after) query k = Return results /\
        ~ In (to_result entry) results)).
Proof.
  split; [|split].
  - intros entry query k. apply fcc_news_search_single.
  - intros entry query k. apply fcc_youtube_search_single.
  - intros before entry after query k Htitle Hdesc. split.
    + intros Hlt. rewrite fcc_news_search_scan.
      set (hit := news_hit (lower query)) in *.
      assert (Hhit : hit entry = true).
      { unfold hit, news_hit. rewrite Hdesc. apply orb_true_r. }
      eexists. split; [reflexivity|].
      rewrite scan_firstn by (cbn; lia). cbn [app length].
      rewrite Nat.sub_0_r, List.filter_app. cbn [List.filter]. rewrite Hhit.
      assert (Hin : In (to_result entry)
                (map to_result
                   (firstn (Z.to_nat k)
                      (List.filter hit before ++ entry :: List.filter hit after)))).
      { apply in_map. rewrite firstn_app.
        apply in_or_app. right.
        destruct (Z.to_nat k - length (List.filter hit before))%nat eqn:Hsub; [lia|].
        cbn. auto. }
      destruct (map to_result _); [destruct Hin | exact Hin].
    + rewrite fcc_youtube_search_scan.
      set (hit := youtube_hit (lower query)).
      eexists. split; [reflexivity|].
      destruct (scan_prefix hit k (before ++ entry :: after) [])
        as (visited & _ & ->).
      cbn [app]. intros Hin.
      assert (Hin' : In (to_result entry) (map to_result (List.filter hit visited))).
      { destruct (List.filter hit visited) as [|x xs]; [|exact Hin].
        cbn in Hin. destruct Hin as [Heq|[]].
        assert (Hl : ({[ "message" := "No videos found" ]} : gmap string string)
                       !! "title" = to_result entry !! "title") by congruence.
        rewrite to_result_title, message_no_title in Hl. discriminate. }
      apply in_map_iff in Hin' as (other & Heq & Hother).
      apply filter_In in Hother as [_ Hother].
      assert (Hl : to_result other !! "title" = to_result entry !! "title")
        by congruence.
      rewrite !to_result_title in Hl. injection Hl as Hl.
      unfold hit, youtube_hit in Hother. rewrite Hl, Htitle in Hother.
      discriminate.
Qed.

Lemma news_and_youtube_match_witness :
  (exists results,
     fcc_news_search
       ([ {[ "title" := "Learn Python" ]} ]
        ++ {[ "title" := "Weekly"; "description" := "All about Python" ]} :: [])
       "python" 2 = Return results /\
     In (to_result {[ "title" := "Weekly"; "description" := "All about Python" ]})
        results) /\
  (exists results,
     fcc_youtube_search
       ([ {[ "title" := "Learn Python" ]} ]
        ++ {[ "title" := "Weekly"; "description" := "All about Python" ]} :: [])
       "python" 2 = Return results /\
     ~ In (to_result {[ "title" := "Weekly"; "description" := "All about Python" ]})
          results).
Proof.
  pose proof (proj2 (proj2 news_and_youtube_match)
    [ {[ "title" := "Learn Python" ]} ]
    {[ "title" := "Weekly"; "description" := "All about Python" ]} []
    "python" 2 eq_refl eq_refl) as [Hnews Hyoutube].
  split; [apply Hnews; vm_compute; reflexivity | exact Hyoutube].
Defined.

(** C8: an entry that lacks [title], [description] or [link] is searched
    exactly as the same entry with that field set to the empty string, and
    both searches return normally; on an entry with no field at all the
    title and url of a hit are empty strings. *)
Theorem search_missing_field :
  (forall before entry after key query k,
     In key ["title"; "description"; "link"] ->
     entry !! key = None ->
     fcc_news_search (before ++ entry :: after) query k =
       fcc_news_search (before ++ <[key := ""]> entry :: after) query k /\
     fcc_youtube_search (before ++ entry :: after) query k =
       fcc_youtube_search (before ++ <[key := ""]> entry :: after) query k) /\
  (forall entries query k,
     (exists results, fcc_news_search entries query k = Return results) /\
     (exists results, fcc_youtube_search entries query k = Return results)) /\
  (forall k,
     fcc_news_search [∅] "" k = Return [ {[ "title" := ""; "url" := "" ]} ] /\
     fcc_youtube_search [∅] "" k = Return [ {[ "title" := ""; "url" := "" ]} ]).
Proof.
  split; [|split].
  - intros before entry after key query k _ Hnone.
    rewrite !fcc_news_search_scan, !fcc_youtube_search_scan.
    assert (Hall : Forall2 same_fields (before ++ entry :: after)
                     (before ++ <[key := ""]> entry :: after)).
    { apply Forall2_app.
      - apply Forall2_same_length_lookup_2; [reflexivity|].
        intros i a b Ha Hb. rewrite Ha in Hb. injection Hb as <-.
        apply same_fields_refl.
      - constructor; [by apply same_fields_fill|].
        apply Forall2_same_length_lookup_2; [reflexivity|].
        intros i a b Ha Hb. rewrite Ha in Hb. injection Hb as <-.
        apply same_fields_refl. }
    split; f_equal; f_equal; apply scan_same_fields; auto using
      news_hit_same_fields, youtube_hit_same_fields.
  - intros entries query k. split; eexists; reflexivity.
  - intros k.
    rewrite (fcc_news_search_single ∅ "" k), (fcc_youtube_search_single ∅ "" k).
    split; reflexivity.
Qed.

Lemma search_missing_field_witness :
  fcc_news_search
    ([ {[ "title" := "React" ]} ] ++ {[ "title" := "python 3" ]} :: []) "Python" 3
  = fcc_news_search
    ([ {[ "title" := "React" ]} ]
     ++ <["description" := ""]> {[ "title" := "python 3" ]} :: []) "Python" 3.
Proof.
  apply (proj1 search_missing_field
    [ {[ "title" := "React" ]} ] {[ "title" := "python 3" ]} []
    "description" "Python" 3).
  - cbn. auto.
  - reflexivity.
Defined.

(** * Further properties of the calculators *)

(** [b == 0] holds for the two zeros and for nothing else. *)
Lemma is_zero_iff b : is_zero b = true <-> b = 0%float \/ b = (-0)%float.
Proof.
  unfold is_zero. rewrite FloatAxioms.eqb_spec. split.
  - intros H. pose proof (SF2Prim_Prim2SF b) as Hb.
    destruct (Prim2SF b) as [[]|[]| |[] m e]; cbn in H; try discriminate;
      rewrite <- Hb; auto.
  - intros [-> | ->]; reflexivity.
Qed.

(** X1: the zero guard of the three divide handlers fires for the divisors
    [0.0] and [-0.0] and for no other float: NaN and the infinities are
    divided by. *)
Theorem divide_rejects_exactly_zero (a b : float) :
  (FastMCPCalculator.divide a b = Raise (ValueError "Cannot divide by zero.")
   <-> b = 0%float \/ b = (-0)%float) /\
  (FastMCPCalculatorV2.divide a b = Raise (ValueError "Cannot divide by zero.")
   <-> b = 0%float \/ b = (-0)%float) /\
  (FastAPICalculator.divide_numbers a b =
     Return {[ "error" := JString "Division by zero is not allowed." ]}
   <-> b = 0%float \/ b = (-0)%float).
Proof.
  rewrite <- is_zero_iff.
  unfold FastMCPCalculator.divide, FastMCPCalculatorV2.divide,
    FastAPICalculator.divide_numbers.
  destruct (is_zero b); cbv zeta; repeat split; intros H;
    try reflexivity; discriminate H.
Qed.

(** X2: a NaN divisor is not rejected: every divide handler returns, and
    the quotient it returns is NaN. *)
Theorem divide_nan_divisor (a : float) :
  FastMCPCalculator.divide a nan = Return nan /\
  FastMCPCalculatorV2.divide a nan = Return nan /\
  FastAPICalculator.divide_numbers a nan = Return {[ "result" := JNumber nan ]}.
Proof.
  assert (Hdiv : (a / nan)%float = nan).
  { rewrite <- (SF2Prim_Prim2SF (a / nan)), div_spec.
    destruct (Prim2SF a) as [[]|[]| |[] m e]; reflexivity. }
  unfold FastMCPCalculator.divide, FastMCPCalculatorV2.divide,
    FastAPICalculator.divide_numbers.
  change (is_zero nan) with false. cbv zeta. rewrite Hdiv. auto.
Qed.

(** X3: the FastAPI endpoints and the FastMCP tools compute the same
    numbers. An endpoint answers [{"result": v}] exactly when the tool of
    the same operation returns [v], and [divide_numbers] answers with its
    error object exactly when [divide] raises. *)
Theorem fastapi_agrees_with_fastmcp (a b v : float) :
  (FastAPICalculator.multiply_numbers a b = Return {[ "result" := JNumber v ]}
   <-> FastMCPCalculator.multiply a b = Return v) /\
  (FastAPICalculator.add_numbers a b = Return {[ "result" := JNumber v ]}
   <-> FastMCPCalculator.add_numbers a b = Return v) /\
  (FastAPICalculator.subtract_numbers a b = Return {[ "result" := JNumber v ]}
   <-> FastMCPCalculator.subtract a b = Return v) /\
  (FastAPICalculator.divide_numbers a b = Return {[ "result" := JNumber v ]}
   <-> FastMCPCalculator.divide a b = Return v) /\
  (FastAPICalculator.divide_numbers a b =
     Return {[ "error" := JString "Division by zero is not allowed." ]}
   <-> FastMCPCalculator.divide a b = Raise (ValueError "Cannot divide by zero.")).
Proof.
  assert (Hinj : forall x y : float,
    Return ({[ "result" := JNumber x ]} : gmap string json)
      = Return {[ "result" := JNumber y ]} <-> @Return float x = Return y).
  { intros x y. split; intros H; [|by injection H as ->].
    assert (Hl : ({[ "result" := JNumber x ]} : gmap string json) !! "result"
                 = ({[ "result" := JNumber y ]} : gmap string json) !! "result")
      by congruence.
    rewrite !lookup_singleton_eq in Hl. congruence. }
  unfold FastAPICalculator.multiply_numbers, FastAPICalculator.add_numbers,
    FastAPICalculator.subtract_numbers, FastAPICalculator.divide_numbers,
    FastMCPCalculator.multiply, FastMCPCalculator.add_numbers,
    FastMCPCalculator.subtract, FastMCPCalculator.divide.
  cbv zeta. repeat split; try apply Hinj.
  all: destruct (is_zero b); try apply Hinj; intros H;
    try reflexivity; try discriminate H.
Qed.

(** * Further properties of the feed search *)

(** ** Helper facts *)

Lemma prefix_iff needle haystack :
  String.prefix needle haystack = true <-> exists post, haystack = needle +:+ post.
Proof.
  revert haystack. induction needle as [|c needle IH]; intros [|d haystack]; cbn.
  - split; [intros _; by exists "" | reflexivity].
  - split; [intros _; by exists (String d haystack) | reflexivity].
  - split; [discriminate | intros [post Hpost]; discriminate].
  - destruct (Ascii.ascii_dec c d) as [->|Hne].
    + rewrite IH. split; intros [post Hpost]; exists post.
      * by rewrite Hpost.
      * by injection Hpost.
    + split; [discriminate | intros [post Hpost]; by injection Hpost].
Qed.

Lemma contains_iff needle haystack :
  contains needle haystack = true <->
  exists pre post, haystack = pre +:+ needle +:+ post.
Proof.
  induction haystack as [|d haystack IH]; cbn [contains].
  - destruct (String.prefix needle "") eqn:Hp.
    + split; [intros _|reflexivity].
      apply prefix_iff in Hp as [post Hpost]. exists "", post. exact Hpost.
    + split; [discriminate|]. intros (pre & post & Heq).
      destruct pre; [|discriminate].
      assert (String.prefix needle "" = true) by (apply prefix_iff; eauto).
      congruence.
  - destruct (String.prefix needle (String d haystack)) eqn:Hp.
    + split; [intros _|reflexivity].
      apply prefix_iff in Hp as [post Hpost]. exists "", post. exact Hpost.
    + rewrite IH. split.
      * intros (pre & post & Heq). exists (String d pre), post. cbn. by rewrite Heq.
      * intros (pre & post & Heq). destruct pre as [|c pre].
        -- assert (String.prefix needle (String d haystack) = true)
             by (apply prefix_iff; eauto).
           congruence.
        -- cbn in Heq. injection Heq as _ Heq. eauto.
Qed.

Lemma contains_empty haystack : contains "" haystack = true.
Proof. destruct haystack; reflexivity. Qed.


Lemma filter_all {A : Type} (f : A -> bool) (l : list A) :
  (forall x, In x l -> f x = true) -> List.filter f l = l.
Proof.
  induction l as [|x l IH]; intros Hall; [reflexivity|]. cbn.
  rewrite (Hall x) by (left; reflexivity). f_equal. apply IH.
  intros y Hy. apply Hall. right. exact Hy.
Qed.

Lemma filter_none {A : Type} (f : A -> bool) (l : list A) :
  List.filter f l = [] -> Forall (fun x => f x = false) l.
Proof.
  induction l as [|x l IH]; intros Hnil; [constructor|]. cbn in Hnil.
  destruct (f x) eqn:Hx; [discriminate|]. constructor; auto.
Qed.


(** For a cap of at least one the loop collects the first [k] hits. *)
Lemma scan_first_hits hit k entries :
  1 <= k ->
  fst (scan hit k entries []) =
    map to_result (firstn (Z.to_nat k) (List.filter hit entries)).
Proof.
  intros Hk. rewrite scan_firstn by (cbn; lia). cbn [app length].
  by rewrite Nat.sub_0_r.
Qed.

(** Whatever the cap, the loop collects all hits when they number at most
    the cap. *)
Lemma scan_all_hits hit k entries :
  Z.of_nat (length (List.filter hit entries)) <= k ->
  fst (scan hit k entries []) = map to_result (List.filter hit entries).
Proof.
  intros Hle. destruct (Z_lt_le_dec k 1) as [Hk|Hk].
  - assert (Hnil : List.filter hit entries = []).
    { destruct (List.filter hit entries); [reflexivity | cbn in Hle; lia]. }
    rewrite Hnil. cbn. apply scan_no_hit, filter_none, Hnil.
  - rewrite scan_first_hits by exact Hk. by rewrite firstn_all2 by lia.
Qed.

(** ** What a result list is made of *)

(** X4: a search never returns an empty list. What it returns is either
    its own one-element sentinel or a list in which every element is the
    [{title, url}] pair of an entry of the feed that is a hit for the
    query; this holds for every cap. *)
Theorem search_results_sound entries query k :
  (exists results,
     fcc_news_search entries query k = Return results /\
     results <> [] /\
     (results = [ {[ "message" := "No results found" ]} ] \/
      Forall (fun r => exists entry,
                In entry entries /\ news_hit (lower query) entry = true /\
                r = to_result entry) results)) /\
  (exists results,
     fcc_youtube_search entries query k = Return results /\
     results <> [] /\
     (results = [ {[ "message" := "No videos found" ]} ] \/
      Forall (fun r => exists entry,
                In entry entries /\ youtube_hit (lower query) entry = true /\
                r = to_result entry) results)).
Proof.
  rewrite fcc_news_search_scan, fcc_youtube_search_scan.
  split; eexists; (split; [reflexivity|]);
    match goal with
    | |- context [scan ?hit k entries []] =>
        destruct (scan_prefix hit k entries []) as (visited & Hsplit & ->);
        cbn [app]; destruct (List.filter hit visited) as [|e hits] eqn:Hhits
    end.
  1,3: split; [discriminate | left; reflexivity].
  all: split; [discriminate | right].
  all: cbn [or_else map]; rewrite <- (map_cons to_result), <- Hhits.
  all: apply Forall_forall; intros r Hr; apply list_elem_of_In in Hr.
  all: apply in_map_iff in Hr as (entry & <- & Hentry).
  all: apply filter_In in Hentry as [Hin Hhit].
  all: exists entry; split; [|split; [exact Hhit | reflexivity]].
  all: rewrite Hsplit; apply in_or_app; left; exact Hin.
Qed.

(** ** The empty query *)

(** X5: the empty query matches every entry: for a cap [k >= 1] both
    searches return the first [k] entries of the feed as [{title, url}]
    pairs, or the sentinel on an empty feed. *)
Theorem search_empty_query entries k :
  1 <= k ->
  fcc_news_search entries "" k =
    Return (or_else (map to_result (firstn (Z.to_nat k) entries))
                    [ {[ "message" := "No results found" ]} ]) /\
  fcc_youtube_search entries "" k =
    Return (or_else (map to_result (firstn (Z.to_nat k) entries))
                    [ {[ "message" := "No videos found" ]} ]).
Proof.
  intros Hk. rewrite fcc_news_search_scan, fcc_youtube_search_scan.
  rewrite !scan_first_hits by exact Hk.
  rewrite !filter_all; [split; reflexivity | |].
  - intros entry _. apply contains_empty.
  - intros entry _. unfold news_hit. cbn [lower]. by rewrite contains_empty.
Qed.

Lemma search_empty_query_witness :
  fcc_news_search
    [ {[ "title" := "A"; "link" := "https://x/a" ]}; ∅;
      {[ "title" := "C" ]} ] "" 2
  = Return [ {[ "title" := "A"; "url" := "https://x/a" ]};
             {[ "title" := ""; "url" := "" ]} ].
Proof.
  rewrite (proj1 (search_empty_query _ 2 ltac:(lia))). vm_compute. reflexivity.
Defined.

(** ** The cap *)

Lemma or_else_firstn_prefix (hits : list (gmap string string)) (n n' : nat)
    (sentinel : gmap string string) :
  (1 <= n <= n')%nat ->
  exists more,
    or_else (map to_result (firstn n' hits)) [sentinel] =
    or_else (map to_result (firstn n hits)) [sentinel] ++ more.
Proof.
  intros Hn. destruct hits as [|hit hits].
  - exists []. by rewrite !firstn_nil.
  - exists (map to_result (skipn n (firstn n' (hit :: hits)))).
    assert (Hsplit : firstn n' (hit :: hits) =
              firstn n (hit :: hits) ++ skipn n (firstn n' (hit :: hits))).
    { rewrite <- (firstn_skipn n (firstn n' (hit :: hits))) at 1.
      by rewrite firstn_firstn, Nat.min_l by lia. }
    rewrite Hsplit at 1. rewrite map_app.
    destruct n as [|n]; [lia|]. reflexivity.
Qed.

(** X6: raising the cap only adds results: for caps [1 <= k <= k'] the
    list returned for [k] is a prefix of the list returned for [k']. *)
Theorem search_cap_monotone entries query k k' :
  1 <= k -> k <= k' ->
  (exists results more,
     fcc_news_search entries query k = Return results /\
     fcc_news_search entries query k' = Return (results ++ more)) /\
  (exists results more,
     fcc_youtube_search entries query k = Return results /\
     fcc_youtube_search entries query k' = Return (results ++ more)).
Proof.
  intros Hk Hk'. rewrite !fcc_news_search_scan, !fcc_youtube_search_scan.
  rewrite !scan_first_hits by lia.
  split.
  - destruct (or_else_firstn_prefix
                (List.filter (news_hit (lower query)) entries)
                (Z.to_nat k) (Z.to_nat k') {[ "message" := "No results found" ]})
      as [more Hmore]; [lia|].
    eexists _, more. split; [reflexivity|]. by rewrite Hmore.
  - destruct (or_else_firstn_prefix
                (List.filter (youtube_hit (lower query)) entries)
                (Z.to_nat k) (Z.to_nat k') {[ "message" := "No videos found" ]})
      as [more Hmore]; [lia|].
    eexists _, more. split; [reflexivity|]. by rewrite Hmore.
Qed.

Lemma search_cap_monotone_witness :
  exists results more,
    fcc_youtube_search
      [ {[ "title" := "Python 1" ]}; {[ "title" := "Go" ]};
        {[ "title" := "python 2" ]} ] "python" 1 = Return results /\
    fcc_youtube_search
      [ {[ "title" := "Python 1" ]}; {[ "title" := "Go" ]};
        {[ "title" := "python 2" ]} ] "python" 2 = Return (results ++ more).
Proof.
  exact (proj2 (search_cap_monotone
    [ {[ "title" := "Python 1" ]}; {[ "title" := "Go" ]};
      {[ "title" := "python 2" ]} ] "python" 1 2 ltac:(lia) ltac:(lia))).
Defined.

(** X7: when the feed has at most [max_results] hits, the search returns
    all of them, in feed order (the sentinel when there is none). *)
Theorem search_returns_all_hits entries query k :
  (Z.of_nat (length (List.filter (news_hit (lower query)) entries)) <= k ->
   fcc_news_search entries query k =
     Return (or_else (map to_result (List.filter (news_hit (lower query)) entries))
                     [ {[ "message" := "No results found" ]} ])) /\
  (Z.of_nat (length (List.filter (youtube_hit (lower query)) entries)) <= k ->
   fcc_youtube_search entries query k =
     Return (or_else (map to_result (List.filter (youtube_hit (lower query)) entries))
                     [ {[ "message" := "No videos found" ]} ])).
Proof.
  rewrite fcc_news_search_scan, fcc_youtube_search_scan.
  split; intros Hle; by rewrite scan_all_hits.
Qed.

Lemma search_returns_all_hits_witness :
  fcc_news_search
    [ {[ "title" := "Python 1" ]}; {[ "title" := "Go" ]};
      {[ "title" := "Tips"; "description" := "for PYTHON" ]} ] "python" 3
  = Return [ {[ "title" := "Python 1"; "url" := "" ]};
             {[ "title" := "Tips"; "url" := "" ]} ].
Proof.
  rewrite (proj1 (search_returns_all_hits _ "python" 3)).
  - vm_compute. reflexivity.
  - vm_compute. discriminate.
Defined.

(** X8: when the feed has at least [max_results >= 1] hits, the search
    returns exactly [max_results] elements. *)
Theorem search_fills_cap entries query k :
  1 <= k ->
  (k <= Z.of_nat (length (List.filter (news_hit (lower query)) entries)) ->
   exists results,
     fcc_news_search entries query k = Return results /\
     Z.of_nat (length results) = k) /\
  (k <= Z.of_nat (length (List.filter (youtube_hit (lower query)) entries)) ->
   exists results,
     fcc_youtube_search entries query k = Return results /\
     Z.of_nat (length results) = k).
Proof.
  intros Hk. rewrite fcc_news_search_scan, fcc_youtube_search_scan.
  rewrite !scan_first_hits by exact Hk.
  split; intros Hle; eexists; (split; [reflexivity|]);
    rewrite or_else_length, length_map, length_firstn; lia.
Qed.

Lemma search_fills_cap_witness :
  exists results,
    fcc_news_search
      [ {[ "title" := "Python 1" ]}; {[ "title" := "Go" ]};
        {[ "title" := "python 2" ]}; {[ "title" := "python 3" ]} ] "python" 2
    = Return results /\
    Z.of_nat (length results) = 2.
Proof.
  apply (proj1 (search_fills_cap _ "python" 2 ltac:(lia))).
  vm_compute. discriminate.
Defined.

(** X9: once the feed holds [max_results >= 1] hits, entries added after
    them do not change the result. *)
Theorem search_ignores_entries_after_cap entries more query k :
  1 <= k ->
  (k <= Z.of_nat (length (List.filter (news_hit (lower query)) entries)) ->
   fcc_news_search (entries ++ more) query k = fcc_news_search entries query k) /\
  (k <= Z.of_nat (length (List.filter (youtube_hit (lower query)) entries)) ->
   fcc_youtube_search (entries ++ more) query k =
     fcc_youtube_search entries query k).
Proof.
  intros Hk. rewrite !fcc_news_search_scan, !fcc_youtube_search_scan.
  rewrite !scan_first_hits by exact Hk.
  split; intros Hle; rewrite List.filter_app, firstn_app;
    match goal with
    | |- context [firstn (?n - ?m) ?l] =>
        replace (n - m)%nat with 0%nat by lia
    end; by rewrite firstn_O, app_nil_r.
Qed.

Lemma search_ignores_entries_after_cap_witness :
  fcc_youtube_search
    ([ {[ "title" := "Python 1" ]}; {[ "title" := "python 2" ]} ]
     ++ [ {[ "title" := "python 3" ]} ]) "python" 2
  = fcc_youtube_search
    [ {[ "title" := "Python 1" ]}; {[ "title" := "python 2" ]} ] "python" 2.
Proof.
  apply (proj2 (search_ignores_entries_after_cap _ _ "python" 2 ltac:(lia))).
  vm_compute. discriminate.
Defined.

(** X10: with a cap of zero or less only the first entry of the feed
    counts: the result is that of the one-entry feed, the entry itself when
    it is a hit and the sentinel otherwise, whatever follows it. *)
Theorem search_nonpositive_cap_first_entry entry rest query k :
  k <= 0 ->
  fcc_news_search (entry :: rest) query k = fcc_news_search [entry] query k /\
  fcc_youtube_search (entry :: rest) query k = fcc_youtube_search [entry] query k /\
  (news_hit (lower query) entry = false ->
   fcc_news_search (entry :: rest) query k =
     Return [ {[ "message" := "No results found" ]} ]) /\
  (youtube_hit (lower query) entry = false ->
   fcc_youtube_search (entry :: rest) query k =
     Return [ {[ "message" := "No videos found" ]} ]).
Proof.
  intros Hk. rewrite !fcc_news_search_scan, !fcc_youtube_search_scan.
  rewrite !scan_nonpositive_cap by exact Hk. cbn [fst].
  repeat split; intros ->; reflexivity.
Qed.

Lemma search_nonpositive_cap_first_entry_witness :
  fcc_news_search
    [ {[ "title" := "Go" ]}; {[ "title" := "python 2" ]} ] "python" (-1)
  = Return [ {[ "message" := "No results found" ]} ].
Proof.
  apply (search_nonpositive_cap_first_entry _ _ "python" (-1) ltac:(lia)).
  reflexivity.
Defined.

(** ** Matching *)

(** X11: an entry is returned exactly when the lower-cased query occurs as
    a contiguous substring of the lower-cased title (for the news search:
    of the lower-cased title or description). *)
Theorem search_hit_iff_substring entry query k :
  (fcc_youtube_search [entry] query k = Return [to_result entry] <->
   exists pre post,
     lower (get entry "title" "") = pre +:+ lower query +:+ post) /\
  (fcc_news_search [entry] query k = Return [to_result entry] <->
   (exists pre post,
      lower (get entry "title" "") = pre +:+ lower query +:+ post) \/
   (exists pre post,
      lower (get entry "description" "") = pre +:+ lower query +:+ post)).
Proof.
  assert (Hne : forall msg : string,
            Return [ ({[ "message" := msg ]} : gmap string string) ]
            <> Return [to_result entry]).
  { intros msg Heq.
    assert (Hl : ({[ "message" := msg ]} : gmap string string) !! "title"
                 = to_result entry !! "title") by congruence.
    rewrite to_result_title, message_no_title in Hl. discriminate. }
  rewrite fcc_youtube_search_single, fcc_news_search_single.
  rewrite <- !contains_iff. unfold news_hit, youtube_hit. split.
  - destruct (contains _ (lower (get entry "title" ""))).
    + split; reflexivity.
    + split; [intros H; by apply Hne in H | discriminate].
  - destruct (contains _ (lower (get entry "title" ""))),
             (contains _ (lower (get entry "description" ""))); cbn [orb].
    1-3: split; [auto | reflexivity].
    split; [intros H; by apply Hne in H | intros [|]; discriminate].
Qed.

Lemma scan_news_sentinel_youtube query k entries :
  fst (scan (news_hit (lower query)) k entries []) = [] ->
  fst (scan (youtube_hit (lower query)) k entries []) = [].
Proof.
  destruct entries as [|entry rest]; [reflexivity|].
  assert (Himp : forall e, news_hit (lower query) e = false ->
                           youtube_hit (lower query) e = false).
  { intros e. unfold news_hit, youtube_hit. by intros [? _]%orb_false_iff. }
  destruct (Z_lt_le_dec k 1) as [Hk|Hk].
  - rewrite !scan_nonpositive_cap by lia. cbn [fst].
    destruct (news_hit (lower query) entry) eqn:Hn; [discriminate|].
    by rewrite (Himp _ Hn).
  - rewrite !scan_first_hits by exact Hk. intros Hnil.
    apply map_eq_nil in Hnil.
    assert (Hnone : List.filter (news_hit (lower query)) (entry :: rest) = []).
    { destruct (List.filter _ (entry :: rest)); [reflexivity|].
      destruct (Z.to_nat k) eqn:Hz; [lia | discriminate]. }
    apply filter_none in Hnone.
    assert (Hy : List.filter (youtube_hit (lower query)) (entry :: rest) = []).
    { clear -Hnone Himp. induction Hnone as [|e es He Hes IH]; [reflexivity|].
      cbn. by rewrite (Himp _ He). }
    rewrite Hy. by rewrite firstn_nil.
Qed.

(** X12: the video search never finds what the news search misses: on the
    same feed, query and cap, when [fcc_news_search] returns its sentinel,
    [fcc_youtube_search] returns its sentinel too. *)
Theorem news_sentinel_implies_youtube_sentinel entries query k :
  fcc_news_search entries query k = Return [ {[ "message" := "No results found" ]} ] ->
  fcc_youtube_search entries query k = Return [ {[ "message" := "No videos found" ]} ].
Proof.
  rewrite fcc_news_search_scan, fcc_youtube_search_scan. intros Hnews.
  rewrite scan_news_sentinel_youtube; [reflexivity|].
  destruct (scan_prefix (news_hit (lower query)) k entries [])
    as (visited & _ & Hfst).
  rewrite Hfst in *. cbn [app] in *.
  destruct (List.filter _ visited) as [|e hits]; [reflexivity|].
  cbn in Hnews.
  assert (Hl : to_result e !! "title"
               = ({[ "message" := "No results found" ]} : gmap string string)
                   !! "title") by congruence.
  rewrite to_result_title, message_no_title in Hl. discriminate.
Qed.

Lemma news_sentinel_implies_youtube_sentinel_witness :
  fcc_youtube_search [ {[ "title" := "Go"; "description" := "channels" ]} ] "python" 3
  = Return [ {[ "message" := "No videos found" ]} ].
Proof.
  apply news_sentinel_implies_youtube_sentinel. reflexivity.
Defined.



(** X14: for a cap [k >= 1], [fcc_youtube_search] returns the
    [{title, url}] pairs of the first [k] entries whose lower-cased title
    contains the lower-cased query, in feed order, and its loop leaves the
    entries after the [k]-th hit unvisited. *)
Theorem youtube_search_order_and_cap entries query k :
  1 <= k ->
  exists visited unvisited,
    entries = visited ++ unvisited /\
    youtube_loop (lower query) k entries [] =
      (map to_result (List.filter (youtube_hit (lower query)) visited), unvisited) /\
    (length (List.filter (youtube_hit (lower query)) visited) < Z.to_nat k ->
     unvisited = [])%nat /\
    (length (List.filter (youtube_hit (lower query)) visited) = Z.to_nat k ->
     exists before last,
       visited = before ++ [last] /\ youtube_hit (lower query) last = true) /\
    fcc_youtube_search entries query k =
      Return (or_else
                (map (fun entry => {[ "title" := get entry "title" "";
                                      "url" := get entry "link" "" ]})
                   (firstn (Z.to_nat k)
                      (List.filter (youtube_hit (lower query)) entries)))
                [ {[ "message" := "No videos found" ]} ]).
Proof.
  intros Hk. set (hit := youtube_hit (lower query)).
  assert (Hlt : Z.of_nat (length (@nil (gmap string string))) < k) by (cbn; lia).
  destruct (scan_stop hit k entries [] Hlt)
    as (visited & Hsplit & Hfst & Hle & Hend & Hlast).
  cbn [app] in Hfst. rewrite Hfst, length_map in Hle, Hend, Hlast.
  exists visited, (snd (scan hit k entries [])).
  split; [exact Hsplit|]. split.
  { rewrite youtube_loop_scan. fold hit. rewrite <- Hfst. apply surjective_pairing. }
  split; [intros Hl; apply Hend; lia|].
  split; [intros Hl; apply Hlast; lia|].
  rewrite fcc_youtube_search_scan. fold hit.
  rewrite scan_first_hits by exact Hk. reflexivity.
Qed.

Lemma youtube_search_order_and_cap_witness :
  fcc_youtube_search
    [ {[ "title" := "Go" ]}; {[ "title" := "PYTHON 1"; "link" := "https://x/1" ]};
      {[ "title" := "Tips"; "description" := "python" ]};
      {[ "title" := "python 2" ]}; {[ "title" := "python 3" ]} ] "Python" 2
  = Return [ {[ "title" := "PYTHON 1"; "url" := "https://x/1" ]};
             {[ "title" := "python 2"; "url" := "" ]} ].
Proof.
  destruct (youtube_search_order_and_cap
    [ {[ "title" := "Go" ]}; {[ "title" := "PYTHON 1"; "link" := "https://x/1" ]};
      {[ "title" := "Tips"; "description" := "python" ]};
      {[ "title" := "python 2" ]}; {[ "title" := "python 3" ]} ] "Python" 2
    ltac:(lia)) as (visited & unvisited & _ & _ & _ & _ & Hsearch).
  rewrite Hsearch. vm_compute. reflexivity.
Defined.

Lemma scan_same_urls hit hit' k entries entries' results results' :
  Forall2 (fun a b : gmap string string =>
             hit a = hit' b /\ get a "link" "" = get b "link" "")
          entries entries' ->
  Forall2 (fun r r' : gmap string string => r !! "url" = r' !! "url")
          results results' ->
  Forall2 (fun r r' : gmap string string => r !! "url" = r' !! "url")
          (fst (scan hit k entries results)) (fst (scan hit' k entries' results')).
Proof.
  intros Hall. revert results results'.
  induction Hall as [|a b rest rest' [Hhit Hlink] Hrest IH];
    intros results results' Hres; [exact Hres|].
  rewrite !scan_step. cbv zeta. rewrite <- Hhit.
  set (next := if hit a then results ++ [to_result a] else results).
  set (next' := if hit a then results' ++ [to_result b] else results').
  assert (Hnext : Forall2 (fun r r' : gmap string string => r !! "url" = r' !! "url")
                    next next').
  { subst next next'. destruct (hit a); [|exact Hres].
    apply Forall2_app; [exact Hres|]. constructor; [|constructor].
    by rewrite !to_result_url, Hlink. }
  rewrite <- (Forall2_length _ _ _ Hnext).
  destruct (_ >=? k); [exact Hnext | by apply IH].
Qed.

Lemma same_urls_or_else results results' (sentinel sentinel' : gmap string string) :
  Forall2 (fun r r' : gmap string string => r !! "url" = r' !! "url")
          results results' ->
  sentinel !! "url" = sentinel' !! "url" ->
  map (fun r : gmap string string => r !! "url") (or_else results [sentinel]) =
  map (fun r : gmap string string => r !! "url") (or_else results' [sentinel']).
Proof.
  intros Hres Hs. destruct Hres as [|r r' rs rs' Hr Hrs]; cbn; [by rewrite Hs|].
  rewrite Hr. f_equal. induction Hrs as [|x y xs ys Hxy _ IH]; cbn; [reflexivity|].
  by rewrite Hxy, IH.
Qed.

(** X15: matching ignores the letter case of the feed text: two feeds
    whose entries agree, one by one, on the lower-cased title, the
    lower-cased description and the link give results with the same urls in
    the same order, in both searches. *)
Theorem search_ignores_case_of_fields entries entries' query k :
  Forall2 (fun a b : gmap string string =>
             lower (get a "title" "") = lower (get b "title" "") /\
             lower (get a "description" "") = lower (get b "description" "") /\
             get a "link" "" = get b "link" "")
          entries entries' ->
  (exists results results',
     fcc_news_search entries query k = Return results /\
     fcc_news_search entries' query k = Return results' /\
     map (fun r : gmap string string => r !! "url") results =
     map (fun r : gmap string string => r !! "url") results') /\
  (exists results results',
     fcc_youtube_search entries query k = Return results /\
     fcc_youtube_search entries' query k = Return results' /\
     map (fun r : gmap string string => r !! "url") results =
     map (fun r : gmap string string => r !! "url") results').
Proof.
  intros Hall. rewrite !fcc_news_search_scan, !fcc_youtube_search_scan.
  split; eexists _, _; (split; [reflexivity|]); (split; [reflexivity|]);
    apply same_urls_or_else; try reflexivity;
    apply scan_same_urls; try constructor;
    (eapply Forall2_impl; [exact Hall|]);
    intros a b (Ht & Hd & Hl); (split; [|exact Hl]);
    unfold news_hit, youtube_hit; by rewrite ?Ht, ?Hd.
Qed.

Lemma search_ignores_case_of_fields_witness :
  exists results results',
    fcc_news_search
      [ {[ "title" := "LEARN PYTHON"; "link" := "https://x/1" ]};
        {[ "title" := "Go"; "description" := "Not Python"; "link" := "https://x/2" ]} ]
      "python" 3 = Return results /\
    fcc_news_search
      [ {[ "title" := "learn python"; "link" := "https://x/1" ]};
        {[ "title" := "GO"; "description" := "not python"; "link" := "https://x/2" ]} ]
      "python" 3 = Return results' /\
    map (fun r : gmap string string => r !! "url") results =
    map (fun r : gmap string string => r !! "url") results'.
Proof.
  apply (search_ignores_case_of_fields
    [ {[ "title" := "LEARN PYTHON"; "link" := "https://x/1" ]};
      {[ "title" := "Go"; "description" := "Not Python"; "link" := "https://x/2" ]} ]
    [ {[ "title" := "learn python"; "link" := "https://x/1" ]};
      {[ "title" := "GO"; "description" := "not python"; "link" := "https://x/2" ]} ]
    "python" 3).
  repeat constructor.
Defined.



